(** * ChartTable: a shallow embedding of
    superset-frontend/src/views/CRUD/welcome/ChartTable.tsx

    The component is modelled as an explicit React state machine: one
    record holds the committed state of the mounted instance (its own
    [useState] cells, the state of the list-view resource hook and of the
    edit-modal hook, local storage, and the log of calls made to the
    collaborators); events are user actions, the passive effect of the
    last commit, and the completions of the asynchronous collaborators. *)

From Stdlib Require Import String List Bool ZArith Lia.
From Stdlib Require Import DecimalString.
Import ListNotations.
Open Scope string_scope.

(** ** JavaScript values and objects *)

Inductive jsval : Type :=
| JNum (z : Z)
| JStr (s : string)
| JBool (b : bool)
| JNull.

Definition jsval_eqb (a b : jsval) : bool :=
  match a, b with
  | JNum x, JNum y => Z.eqb x y
  | JStr x, JStr y => String.eqb x y
  | JBool x, JBool y => Bool.eqb x y
  | JNull, JNull => true
  | _, _ => false
  end.

(** A plain object: its own properties, in insertion order. *)
Definition obj := list (string * jsval).

(** [k in o] for a plain object (Object.prototype holds no data keys). *)
Definition has_key (k : string) (o : obj) : bool :=
  existsb (fun kv => String.eqb (fst kv) k) o.

Fixpoint get_prop (o : obj) (k : string) : option jsval :=
  match o with
  | [] => None
  | (k', v) :: o' => if String.eqb k' k then Some v else get_prop o' k
  end.

Definition opt_jsval_eqb (a b : option jsval) : bool :=
  match a, b with
  | Some x, Some y => jsval_eqb x y
  | None, None => true
  | _, _ => false
  end.

(** A chart as the component handles it: an object with an [id]. *)
Definition Chart := obj.
Definition chart_id (c : Chart) : option jsval := get_prop c "id".

(** Truthiness of a string read back from storage. *)
Definition str_truthy (s : string) : bool :=
  negb (String.eqb s "").

(** ** Constants of the module and of its imports *)

Definition PAGE_SIZE : nat := 3.

(** Modelled from the spec: the enum [TableTabTypes] of
    src/views/CRUD/types (not in the excerpt), "FilterTab: enumeration
    {Favorite, Mine, Examples}"; the code compares its values with the
    literals ['Mine'] and ['Favorite']. *)
Module TableTabTypes.
Definition FAVORITE : string := "Favorite".
Definition MINE : string := "Mine".
Definition EXAMPLES : string := "Examples".
End TableTabTypes.

(** Modelled from the spec: the key [HOMEPAGE_CHART_FILTER] of
    src/views/CRUD/storageKeys, "one fixed key for the chart filter tab". *)
Definition HOMEPAGE_CHART_FILTER : string := "homepage_chart_filter".

(** ** Local storage *)

(** Modelled from the spec: src/utils/localStorageHelpers, the key-value
    persistence collaborator, "get(key) -> value|null; set(key, value)". *)
Definition Storage := string -> option string.

Definition getFromLocalStorage (s : Storage) (key : string)
  (default : option string) : option string :=
  match s key with
  | Some v => Some v
  | None => default
  end.

Definition setInLocalStorage (s : Storage) (key : string) (v : string) : Storage :=
  fun k => if String.eqb k key then Some v else s k.

(** ** Props *)

Record User := { userId : Z }.

Record ChartTableProps := {
  user : option User;
  mine : list obj;
  examples : option (list obj);
}.

(** [`${user?.userId}`]. The id is a JS number holding an integer; it is
    taken as a [Z], printed in decimal, which is how JS prints integers
    below 1e21 (exponential notation above, and ids beyond 2^53 are not
    exact in JS to begin with). *)
Definition template_user_id (u : option User) : string :=
  match u with
  | Some u => NilZero.string_of_int (Z.to_int (userId u))
  | None => "undefined"
  end.

(** ** Initial filter and default collection (lines 68-75, 88) *)

Definition initialFilter (p : ChartTableProps) (s : Storage) : string :=
  let filterStore := getFromLocalStorage s HOMEPAGE_CHART_FILTER None in
  let initialFilter :=
    match filterStore with
    | Some v => if str_truthy v then v else TableTabTypes.EXAMPLES
    | None => TableTabTypes.EXAMPLES
    end in
  match examples p, filterStore with
  | None, Some v =>
      if String.eqb v TableTabTypes.EXAMPLES then TableTabTypes.MINE
      else initialFilter
  | _, _ => initialFilter
  end.

(** lodash [filter(examples, obj => 'viz_type' in obj)]; lodash maps an
    undefined collection to []. *)
Definition filteredExamples (p : ChartTableProps) : list obj :=
  match examples p with
  | Some l => filter (has_key "viz_type") l
  | None => []
  end.

Definition defaultCollection (p : ChartTableProps) (s : Storage) : list obj :=
  if String.eqb (initialFilter p s) "Mine" then mine p else filteredExamples p.

(** ** Fetch configuration (lines 125-142, 174-185) *)

Record Filter := { f_id : string; f_operator : string; f_value : jsval }.
Record SortBy := { s_id : string; s_desc : bool }.
Record FetchDataConfig := {
  pageIndex : nat;
  pageSize : nat;
  sortBy : list SortBy;
  filters : list Filter;
}.

Definition getFilters (p : ChartTableProps) (filterName : string) : list Filter :=
  if String.eqb filterName "Mine" then
    [ {| f_id := "created_by"; f_operator := "rel_o_m";
         f_value := JStr (template_user_id (user p)) |} ]
  else if String.eqb filterName "Favorite" then
    [ {| f_id := "id"; f_operator := "chart_is_favorite";
         f_value := JBool true |} ]
  else [].

Definition getData_config (p : ChartTableProps) (filter : string) : FetchDataConfig :=
  {| pageIndex := 0;
     pageSize := PAGE_SIZE;
     sortBy := [ {| s_id := "changed_on_delta_humanized"; s_desc := true |} ];
     filters := getFilters p filter |}.

(** ** Component state *)

Record State := {
  (* useState cells of ChartTable *)
  chartFilter : string;
  preparingExport : bool;
  loaded : bool;
  (* state of useListViewResource *)
  loading : bool;
  charts : list Chart;
  (* state of useChartEditModal *)
  sliceCurrentlyEditing : option Chart;
  (* the effect of the last commit has not run yet *)
  effect_pending : bool;
  (* collaborators *)
  storage : Storage;
  outstanding : list (nat * FetchDataConfig);
  next_req : nat;
  fetch_log : list FetchDataConfig;
  export_log : list (list (option jsval));
  exports_pending : nat;
}.

Definition set_chartFilter (v : string) (st : State) : State :=
  {| chartFilter := v; preparingExport := preparingExport st; loaded := loaded st;
     loading := loading st; charts := charts st;
     sliceCurrentlyEditing := sliceCurrentlyEditing st; effect_pending := true;
     storage := storage st; outstanding := outstanding st; next_req := next_req st;
     fetch_log := fetch_log st; export_log := export_log st;
     exports_pending := exports_pending st |}.

Definition set_preparingExport (b : bool) (st : State) : State :=
  {| chartFilter := chartFilter st; preparingExport := b; loaded := loaded st;
     loading := loading st; charts := charts st;
     sliceCurrentlyEditing := sliceCurrentlyEditing st;
     effect_pending := effect_pending st;
     storage := storage st; outstanding := outstanding st; next_req := next_req st;
     fetch_log := fetch_log st; export_log := export_log st;
     exports_pending := exports_pending st |}.

Definition set_storage (s : Storage) (st : State) : State :=
  {| chartFilter := chartFilter st; preparingExport := preparingExport st;
     loaded := loaded st; loading := loading st; charts := charts st;
     sliceCurrentlyEditing := sliceCurrentlyEditing st;
     effect_pending := effect_pending st;
     storage := s; outstanding := outstanding st; next_req := next_req st;
     fetch_log := fetch_log st; export_log := export_log st;
     exports_pending := exports_pending st |}.

Definition set_charts_editing (cs : list Chart) (e : option Chart) (st : State) : State :=
  {| chartFilter := chartFilter st; preparingExport := preparingExport st;
     loaded := loaded st; loading := loading st; charts := cs;
     sliceCurrentlyEditing := e; effect_pending := effect_pending st;
     storage := storage st; outstanding := outstanding st; next_req := next_req st;
     fetch_log := fetch_log st; export_log := export_log st;
     exports_pending := exports_pending st |}.

(** The end of the passive effect: [setLoaded(true)], effect consumed. *)
Definition finish_effect (st : State) : State :=
  {| chartFilter := chartFilter st; preparingExport := preparingExport st;
     loaded := true; loading := loading st; charts := charts st;
     sliceCurrentlyEditing := sliceCurrentlyEditing st; effect_pending := false;
     storage := storage st; outstanding := outstanding st; next_req := next_req st;
     fetch_log := fetch_log st; export_log := export_log st;
     exports_pending := exports_pending st |}.

(** ** Mount (first render) *)

Definition mount (p : ChartTableProps) (s : Storage) : State :=
  {| chartFilter := initialFilter p s;
     preparingExport := false;
     loaded := false;
     loading := false;              (* initialLoadingState = false *)
     charts := defaultCollection p s;
     sliceCurrentlyEditing := None;
     effect_pending := true;        (* effects run after the first commit *)
     storage := s;
     outstanding := []; next_req := 0;
     fetch_log := []; export_log := []; exports_pending := 0 |}.

(** ** The data loader of useListViewResource *)

(** Modelled from the spec: [fetchData] of useListViewResource
    (src/views/CRUD/hooks, not in the excerpt). "issues a request ...
    resolves to a collection of Chart plus a loading flag"; the loading
    indicator is up while the fetch is outstanding; no cancellation. *)
Definition fetchData (cfg : FetchDataConfig) (st : State) : State :=
  {| chartFilter := chartFilter st; preparingExport := preparingExport st;
     loaded := loaded st; loading := true; charts := charts st;
     sliceCurrentlyEditing := sliceCurrentlyEditing st;
     effect_pending := effect_pending st; storage := storage st;
     outstanding := (next_req st, cfg) :: outstanding st;
     next_req := S (next_req st);
     fetch_log := cfg :: fetch_log st;
     export_log := export_log st; exports_pending := exports_pending st |}.

Definition is_outstanding (k : nat) (st : State) : bool :=
  existsb (fun r => Nat.eqb (fst r) k) (outstanding st).

Definition drop_request (k : nat) (rs : list (nat * FetchDataConfig)) :=
  filter (fun r => negb (Nat.eqb (fst r) k)) rs.

(** Modelled from the spec: the success path of [fetchData]; the response
    becomes the resource collection and the loading flag is cleared. *)
Definition fetchResolved (k : nat) (items : list Chart) (st : State) : State :=
  if is_outstanding k st then
    {| chartFilter := chartFilter st; preparingExport := preparingExport st;
       loaded := loaded st; loading := false; charts := items;
       sliceCurrentlyEditing := sliceCurrentlyEditing st;
       effect_pending := effect_pending st; storage := storage st;
       outstanding := drop_request k (outstanding st); next_req := next_req st;
       fetch_log := fetch_log st; export_log := export_log st;
       exports_pending := exports_pending st |}
  else st.

(** Modelled from the spec: the failure path of [fetchData]; "collection
    left unchanged; loading flag cleared" (the toast is not modelled). *)
Definition fetchRejected (k : nat) (st : State) : State :=
  if is_outstanding k st then
    {| chartFilter := chartFilter st; preparingExport := preparingExport st;
       loaded := loaded st; loading := false; charts := charts st;
       sliceCurrentlyEditing := sliceCurrentlyEditing st;
       effect_pending := effect_pending st; storage := storage st;
       outstanding := drop_request k (outstanding st); next_req := next_req st;
       fetch_log := fetch_log st; export_log := export_log st;
       exports_pending := exports_pending st |}
  else st.

(** ** The component's callbacks *)

Definition getData (p : ChartTableProps) (filter : string) (st : State) : State :=
  fetchData (getData_config p filter) st.

(** [useEffect(() => { if (loaded || chartFilter === 'Favorite')
    getData(chartFilter); setLoaded(true); }, [chartFilter])] *)
Definition runEffect (p : ChartTableProps) (st : State) : State :=
  if effect_pending st then
    let st1 :=
      if loaded st || String.eqb (chartFilter st) "Favorite"
      then getData p (chartFilter st) st else st in
    finish_effect st1
  else st.

(** [setChartFilter]: React bails out on an unchanged value; a changed
    dependency schedules the effect. *)
Definition setChartFilter (v : string) (st : State) : State :=
  if String.eqb v (chartFilter st) then st else set_chartFilter v st.

Record MenuTab := { tab_name : string; tab_onClick : State -> State }.

Definition tab_handler (v : string) (st : State) : State :=
  let st1 := setChartFilter v st in
  set_storage (setInLocalStorage (storage st1) HOMEPAGE_CHART_FILTER v) st1.

Definition menuTabs (p : ChartTableProps) : list MenuTab :=
  [ {| tab_name := "Favorite"; tab_onClick := tab_handler TableTabTypes.FAVORITE |};
    {| tab_name := "Mine"; tab_onClick := tab_handler TableTabTypes.MINE |} ]
  ++ match examples p with
     | Some _ => [ {| tab_name := "Examples";
                      tab_onClick := tab_handler TableTabTypes.EXAMPLES |} ]
     | None => []
     end.

Definition menu_names (p : ChartTableProps) : list string :=
  map tab_name (menuTabs p).

(** ** Bulk export (lines 117-123) *)

(** Modelled from the spec: [handleResourceExport] of src/utils/export,
    "exportResources(resourceType, ids, onComplete) — fire-and-forget with
    a completion callback": the call records the ids; the callback fires
    later, as an event of its own ([ExportComplete]). *)
Definition handleResourceExport (ids : list (option jsval)) (st : State) : State :=
  {| chartFilter := chartFilter st; preparingExport := preparingExport st;
     loaded := loaded st; loading := loading st; charts := charts st;
     sliceCurrentlyEditing := sliceCurrentlyEditing st;
     effect_pending := effect_pending st; storage := storage st;
     outstanding := outstanding st; next_req := next_req st;
     fetch_log := fetch_log st; export_log := ids :: export_log st;
     exports_pending := S (exports_pending st) |}.

Definition handleBulkChartExport (chartsToExport : list Chart) (st : State) : State :=
  let ids := map chart_id chartsToExport in
  set_preparingExport true (handleResourceExport ids st).

(** The completion callback [() => { setPreparingExport(false); }];
    one export fewer is outstanding. *)
Definition exportCallback (st : State) : State :=
  {| chartFilter := chartFilter st; preparingExport := false;
     loaded := loaded st; loading := loading st; charts := charts st;
     sliceCurrentlyEditing := sliceCurrentlyEditing st;
     effect_pending := effect_pending st; storage := storage st;
     outstanding := outstanding st; next_req := next_req st;
     fetch_log := fetch_log st; export_log := export_log st;
     exports_pending := pred (exports_pending st) |}.

(** ** Edit modal *)

(** Modelled from the spec: [useChartEditModal] of src/views/CRUD/hooks,
    "States: {closed, editing(chart)}. open(chart) transitions to editing;
    save(updatedChart) replaces the matching entry in the chart collection
    by id and transitions to closed; close() transitions to closed without
    mutation." *)
Definition openChartEditModal (c : Chart) (st : State) : State :=
  set_charts_editing (charts st) (Some c) st.

Definition handleChartUpdated (edits : Chart) (st : State) : State :=
  let newCharts :=
    map (fun c => if opt_jsval_eqb (chart_id c) (chart_id edits) then edits else c)
      (charts st) in
  set_charts_editing newCharts None st.

Definition closeChartEditModal (st : State) : State :=
  set_charts_editing (charts st) None st.

(** ** Events *)

Inductive Event : Type :=
| ClickTab (name : string)
| RunEffect
| FetchResolve (k : nat) (items : list Chart)
| FetchReject (k : nat)
| BulkExport (cs : list Chart)
| ExportComplete
| OpenEdit (c : Chart)
| SaveEdit (edits : Chart)
| CloseEdit.

Fixpoint find_tab (n : string) (ts : list MenuTab) : option MenuTab :=
  match ts with
  | [] => None
  | t :: ts' => if String.eqb (tab_name t) n then Some t else find_tab n ts'
  end.

Definition handle (p : ChartTableProps) (e : Event) (st : State) : State :=
  match e with
  | ClickTab n =>
      match find_tab n (menuTabs p) with
      | Some t => tab_onClick t st
      | None => st
      end
  | RunEffect => runEffect p st
  | FetchResolve k items => fetchResolved k items st
  | FetchReject k => fetchRejected k st
  | BulkExport cs => handleBulkChartExport cs st
  | ExportComplete => exportCallback st
  | OpenEdit c => openChartEditModal c st
  | SaveEdit u => handleChartUpdated u st
  | CloseEdit => closeChartEditModal st
  end.

(** React flushes the pending passive effect of the last commit before it
    renders the next update, so every event first runs it. *)
Definition step (p : ChartTableProps) (st : State) (e : Event) : State :=
  match e with
  | RunEffect => runEffect p st
  | _ => handle p e (runEffect p st)
  end.

Fixpoint run (p : ChartTableProps) (st : State) (es : list Event) : State :=
  match es with
  | [] => st
  | e :: es' => run p (step p st e) es'
  end.

(** ** View (lines 187-255) *)

Inductive Body : Type :=
| CardGrid (cards : list Chart)
| EmptyStateView (tab : string).

Inductive View : Type :=
| VLoading
| VPage (modal : option Chart) (tabs : list string) (activeChild : string)
    (body : Body) (exportSpinner : bool).

Definition render (p : ChartTableProps) (st : State) : View :=
  if loading st then VLoading
  else VPage (sliceCurrentlyEditing st) (menu_names p) (chartFilter st)
         (match charts st with
          | [] => EmptyStateView (chartFilter st)
          | _ => CardGrid (charts st)
          end)
         (preparingExport st).





(** ** Concrete inputs *)

Definition empty_storage : Storage := fun _ => None.

Definition stored (v : string) : Storage :=
  setInLocalStorage empty_storage HOMEPAGE_CHART_FILTER v.

Definition chart_bar : obj := [("id", JNum 1); ("viz_type", JStr "bar")].
Definition chart_line : obj := [("id", JNum 2); ("viz_type", JStr "line")].
Definition not_a_chart : obj := [("id", JNum 9)].

Definition props_ex : ChartTableProps :=
  {| user := Some {| userId := 7 |}; mine := [chart_line];
     examples := Some [chart_bar; not_a_chart] |}.

Definition props_no_ex : ChartTableProps :=
  {| user := Some {| userId := 7 |}; mine := [chart_line]; examples := None |}.


(** * Properties *)

(** ** Frame lemmas *)

Lemma runEffect_frame (p : ChartTableProps) (st : State) :
  chartFilter (runEffect p st) = chartFilter st /\
  storage (runEffect p st) = storage st /\
  charts (runEffect p st) = charts st /\
  preparingExport (runEffect p st) = preparingExport st /\
  sliceCurrentlyEditing (runEffect p st) = sliceCurrentlyEditing st /\
  export_log (runEffect p st) = export_log st /\
  exports_pending (runEffect p st) = exports_pending st.
Proof.
  unfold runEffect, getData, fetchData, finish_effect.
  destruct (effect_pending st); [|repeat split].
  destruct (loaded st || String.eqb (chartFilter st) "Favorite"); repeat split.
Qed.


Lemma runEffect_log (p : ChartTableProps) (st : State) :
  fetch_log (runEffect p st) = fetch_log st \/
  fetch_log (runEffect p st) = getData_config p (chartFilter st) :: fetch_log st.
Proof.
  unfold runEffect, getData, fetchData, finish_effect.
  destruct (effect_pending st); [|left; reflexivity].
  destruct (loaded st || String.eqb (chartFilter st) "Favorite"); simpl; auto.
Qed.

Lemma tab_handler_spec (v : string) (st : State) :
  storage (tab_handler v st) HOMEPAGE_CHART_FILTER = Some v /\
  chartFilter (tab_handler v st) = v.
Proof.
  unfold tab_handler, setInLocalStorage, setChartFilter.
  destruct (String.eqb_spec v (chartFilter st)); simpl;
    split; congruence.
Qed.

Lemma tab_handler_changed (v : string) (st : State) :
  v <> chartFilter st ->
  chartFilter (tab_handler v st) = v /\ effect_pending (tab_handler v st) = true.
Proof.
  intros Hne. unfold tab_handler, setChartFilter.
  destruct (String.eqb_spec v (chartFilter st)) as [E|_]; [congruence|].
  split; reflexivity.
Qed.

Lemma runEffect_favorite (p : ChartTableProps) (st : State) :
  effect_pending st = true -> chartFilter st = "Favorite" ->
  fetch_log (runEffect p st) = getData_config p "Favorite" :: fetch_log st.
Proof.
  intros Hp Hf. unfold runEffect. rewrite Hp, Hf, orb_true_r. reflexivity.
Qed.

(** ** C1 *)

(** C1: whenever the active tab becomes "Favorite", by a click on the
    Favorite tab from any other tab (whatever was loaded before) or on
    mount with Favorite as initial tab, the effect that follows issues a
    fetch for the Favorite tab. *)
Theorem C1_favorite_always_fetches (p : ChartTableProps) :
  (forall st : State, chartFilter st <> "Favorite" ->
     let st1 := step p st (ClickTab "Favorite") in
     chartFilter st1 = "Favorite" /\ effect_pending st1 = true /\
     fetch_log (step p st1 RunEffect) = getData_config p "Favorite" :: fetch_log st1) /\
  (forall s : Storage, initialFilter p s = "Favorite" ->
     effect_pending (mount p s) = true /\
     fetch_log (step p (mount p s) RunEffect) = [getData_config p "Favorite"]).
Proof.
  split.
  - intros st Hne.
    change (step p st (ClickTab "Favorite"))
      with (tab_handler TableTabTypes.FAVORITE (runEffect p st)).
    destruct (runEffect_frame p st) as [Hcf _].
    destruct (tab_handler_changed TableTabTypes.FAVORITE (runEffect p st))
      as [H1 H2]; [rewrite Hcf; exact (fun E => Hne (eq_sym E))|].
    split; [exact H1|]. split; [exact H2|].
    apply runEffect_favorite; assumption.
  - intros s Hs. unfold mount, runEffect, getData, fetchData, finish_effect; simpl.
    rewrite Hs. split; reflexivity.
Qed.

(** ** C2 *)

(** C2 (as stated): on mount the initial tab is the stored value, except
    that a stored "Examples" without examples gives "Mine". It fails with
    empty storage: the value read is null and the initial tab "Examples". *)
Lemma C2_counterexample :
  ~ (forall (p : ChartTableProps) (s : Storage),
       let v := getFromLocalStorage s HOMEPAGE_CHART_FILTER None in
       (examples p = None /\ v = Some "Examples" -> initialFilter p s = "Mine") /\
       (~ (examples p = None /\ v = Some "Examples") -> v = Some (initialFilter p s))).
Proof.
  intros H. destruct (H props_ex empty_storage) as [_ H2].
  assert (E : getFromLocalStorage empty_storage HOMEPAGE_CHART_FILTER None =
              Some (initialFilter props_ex empty_storage)).
  { apply H2. intros [Hx _]. discriminate Hx. }
  discriminate E.
Qed.

(** C2 (amended): the initial tab is the stored value when it is a
    non-empty string, "Examples" when storage holds nothing (or ""), and
    "Mine" when the stored value is "Examples" but no examples were
    supplied. *)
Theorem C2_initial_tab (p : ChartTableProps) (s : Storage) :
  initialFilter p s =
  match getFromLocalStorage s HOMEPAGE_CHART_FILTER None with
  | Some v =>
      if String.eqb v "Examples" && match examples p with None => true | _ => false end
      then "Mine"
      else if String.eqb v "" then "Examples" else v
  | None => "Examples"
  end.
Proof.
  unfold initialFilter, str_truthy, TableTabTypes.EXAMPLES, TableTabTypes.MINE.
  destruct (getFromLocalStorage s HOMEPAGE_CHART_FILTER None) as [v|];
    [|destruct (examples p); reflexivity].
  destruct (examples p); [rewrite andb_false_r | rewrite andb_true_r];
    destruct (String.eqb v "Examples"); destruct (String.eqb v ""); reflexivity.
Qed.

(** ** C3 *)

(** C3: for every tab of the submenu, after its click handler has run the
    value stored under [HOMEPAGE_CHART_FILTER] and the local tab state are
    both the tab's name. *)
Theorem C3_tab_persisted (p : ChartTableProps) (st : State) (n : string) :
  In n (menu_names p) ->
  storage (step p st (ClickTab n)) HOMEPAGE_CHART_FILTER = Some n /\
  chartFilter (step p st (ClickTab n)) = n.
Proof.
  unfold menu_names, menuTabs. intros Hin. simpl.
  destruct (examples p); simpl in Hin;
    repeat (destruct Hin as [<- | Hin]); try contradiction;
    simpl; apply tab_handler_spec.
Qed.

(** ** C4 *)

(** C4: every fetch the component issues asks for page 0 of size 3, sorted
    by [changed_on_delta_humanized] descending, with the filters of the
    tab it is issued for: [created_by rel_o_m <user id>] for Mine,
    [id chart_is_favorite true] for Favorite, none for Examples; and the
    effect issues exactly the fetch of the current tab, if any. *)
Theorem C4_fetch_config (p : ChartTableProps) :
  (forall t : string,
     pageIndex (getData_config p t) = 0 /\
     pageSize (getData_config p t) = 3 /\
     sortBy (getData_config p t) =
       [ {| s_id := "changed_on_delta_humanized"; s_desc := true |} ]) /\
  filters (getData_config p "Mine") =
    [ {| f_id := "created_by"; f_operator := "rel_o_m";
         f_value := JStr (template_user_id (user p)) |} ] /\
  filters (getData_config p "Favorite") =
    [ {| f_id := "id"; f_operator := "chart_is_favorite"; f_value := JBool true |} ] /\
  filters (getData_config p "Examples") = [] /\
  (forall st : State,
     fetch_log (step p st RunEffect) = fetch_log st \/
     fetch_log (step p st RunEffect) = getData_config p (chartFilter st) :: fetch_log st).
Proof.
  repeat split.
  intros st. apply runEffect_log.
Qed.

(** ** Tabs of the submenu *)

Lemma find_tab_handler (p : ChartTableProps) (n : string) (t : MenuTab) :
  find_tab n (menuTabs p) = Some t -> tab_onClick t = tab_handler n.
Proof.
  unfold menuTabs. destruct (examples p); cbn [find_tab app tab_name tab_onClick];
    repeat match goal with
           | |- context [String.eqb ?a ?b] =>
               destruct (String.eqb_spec a b) as [<-|_]
           end;
    intros H; inversion H; reflexivity.
Qed.

Lemma click_handler (p : ChartTableProps) (st : State) (n : string) :
  In n (menu_names p) -> handle p (ClickTab n) st = tab_handler n st.
Proof.
  unfold handle, menu_names, menuTabs. intros Hin.
  destruct (examples p); simpl in Hin;
    repeat (destruct Hin as [<- | Hin]); try contradiction; reflexivity.
Qed.

Lemma tab_handler_frame (v : string) (st : State) :
  loaded (tab_handler v st) = loaded st /\
  fetch_log (tab_handler v st) = fetch_log st /\
  outstanding (tab_handler v st) = outstanding st /\
  preparingExport (tab_handler v st) = preparingExport st /\
  (effect_pending (tab_handler v st) = true ->
     effect_pending st = true \/ chartFilter (tab_handler v st) = v).
Proof.
  unfold tab_handler, setChartFilter.
  destruct (String.eqb v (chartFilter st)); simpl; repeat split; auto.
Qed.

(** ** C5 *)







(** ** C6 *)

Lemma jsval_eqb_eq (a b : jsval) : jsval_eqb a b = true <-> a = b.
Proof.
  destruct a, b; simpl; split; intros H; try discriminate;
    try (inversion H; subst); try reflexivity.
  - apply Z.eqb_eq in H. subst. reflexivity.
  - apply Z.eqb_refl.
  - apply String.eqb_eq in H. subst. reflexivity.
  - apply String.eqb_refl.
  - apply Bool.eqb_prop in H. subst. reflexivity.
  - apply Bool.eqb_reflx.
Qed.

Lemma opt_jsval_eqb_eq (a b : option jsval) : opt_jsval_eqb a b = true <-> a = b.
Proof.
  destruct a as [x|], b as [y|]; simpl; split; intros H; try discriminate;
    try reflexivity.
  - apply jsval_eqb_eq in H. subst. reflexivity.
  - inversion H. apply jsval_eqb_eq. reflexivity.
Qed.

(** C6: saving from the edit modal replaces every entry whose id is the
    edited chart's id by the edited chart, keeps every other entry (and the
    length and order of the collection), and closes the modal; closing
    without saving closes the modal and leaves the collection as it was. *)
Theorem C6_edit_save_close (p : ChartTableProps) (st : State) (u : Chart) :
  let st1 := step p st (SaveEdit u) in
  length (charts st1) = length (charts st) /\
  (forall (i : nat) (c : Chart), nth_error (charts st) i = Some c ->
     (chart_id c = chart_id u -> nth_error (charts st1) i = Some u) /\
     (chart_id c <> chart_id u -> nth_error (charts st1) i = Some c)) /\
  sliceCurrentlyEditing st1 = None /\
  charts (step p st CloseEdit) = charts st /\
  sliceCurrentlyEditing (step p st CloseEdit) = None.
Proof.
  destruct (runEffect_frame p st) as (_ & _ & Hc & _).
  cbn zeta. unfold step, handle, handleChartUpdated, closeChartEditModal,
    set_charts_editing; cbn [charts sliceCurrentlyEditing]. rewrite Hc.
  split; [apply length_map|].
  split; [|repeat split].
  intros i c Hi. rewrite nth_error_map, Hi. simpl. split; intros E.
  - apply opt_jsval_eqb_eq in E. rewrite E. reflexivity.
  - destruct (opt_jsval_eqb (chart_id c) (chart_id u)) eqn:E';
      [apply opt_jsval_eqb_eq in E'; contradiction | reflexivity].
Qed.

(** ** C7 *)

Definition no_export_complete (es : list Event) : bool :=
  forallb (fun e => match e with ExportComplete => false | _ => true end) es.

Lemma tab_handler_preparing (v : string) (st : State) :
  preparingExport (tab_handler v st) = preparingExport st.
Proof. apply (tab_handler_frame v st). Qed.

Lemma step_keeps_preparing (p : ChartTableProps) (st : State) (e : Event) :
  match e with ExportComplete => False | _ => True end ->
  preparingExport st = true -> preparingExport (step p st e) = true.
Proof.
  intros He Hx.
  assert (Hr : preparingExport (runEffect p st) = true).
  { destruct (runEffect_frame p st) as (_ & _ & _ & H & _). rewrite H. exact Hx. }
  destruct e; try contradiction; unfold step, handle; try exact Hr.
  - destruct (find_tab name (menuTabs p)) as [t|] eqn:Ht; [|exact Hr].
    rewrite (find_tab_handler p name t Ht), tab_handler_preparing. exact Hr.
  - unfold fetchResolved. destruct (is_outstanding k (runEffect p st)); exact Hr.
  - unfold fetchRejected. destruct (is_outstanding k (runEffect p st)); exact Hr.
  - reflexivity.
Qed.

Lemma run_keeps_preparing (p : ChartTableProps) (st : State) (es : list Event) :
  no_export_complete es = true ->
  preparingExport st = true -> preparingExport (run p st es) = true.
Proof.
  revert st. induction es as [|e es IH]; intros st Hn Hx; [exact Hx|].
  simpl in Hn. apply andb_prop in Hn as [He Hn].
  apply IH; [exact Hn|]. apply step_keeps_preparing; [|exact Hx].
  destruct e; try discriminate; exact I.
Qed.

Lemma render_grid_spinner (p : ChartTableProps) (st : State) :
  loading st = false -> charts st <> [] ->
  render p st = VPage (sliceCurrentlyEditing st) (menu_names p) (chartFilter st)
                  (CardGrid (charts st)) (preparingExport st).
Proof.
  intros Hl Hc. unfold render. rewrite Hl.
  destruct (charts st); [contradiction | reflexivity].
Qed.

(** C7: a bulk export sends the charts' ids to the export collaborator and
    raises the exporting flag, keeping the collection and the loading flag;
    the flag stays up through any events until the completion callback
    fires, and is down after it; while it is up, a page that is not loading
    shows the card grid with the export spinner over it. *)
Theorem C7_export_flag (p : ChartTableProps) (st : State) (cs : list Chart) :
  let st1 := step p st (BulkExport cs) in
  preparingExport st1 = true /\
  hd_error (export_log st1) = Some (map chart_id cs) /\
  charts st1 = charts (runEffect p st) /\
  loading st1 = loading (runEffect p st) /\
  (forall es : list Event, no_export_complete es = true ->
     let st2 := run p st1 es in
     preparingExport st2 = true /\
     (loading st2 = false -> charts st2 <> [] ->
        render p st2 = VPage (sliceCurrentlyEditing st2) (menu_names p)
                         (chartFilter st2) (CardGrid (charts st2)) true)) /\
  (forall es : list Event,
     preparingExport (step p (run p st1 es) ExportComplete) = false).
Proof.
  cbn zeta.
  assert (H1 : preparingExport (step p st (BulkExport cs)) = true) by reflexivity.
  split; [exact H1|]. split; [reflexivity|]. split; [reflexivity|].
  split; [reflexivity|]. split.
  - intros es Hn.
    pose proof (run_keeps_preparing p _ es Hn H1) as H2.
    split; [exact H2|]. intros Hl Hc. rewrite <- H2. apply render_grid_spinner; assumption.
  - intros es. reflexivity.
Qed.

(** ** C8 *)








(** ** C9 *)

(** C9: with nothing stored under the filter key and no examples supplied,
    the initial tab is "Examples" (the fall-back to "Mine" needs the stored
    value "Examples"), while the submenu has no Examples tab. *)
Theorem C9_null_storage_examples (p : ChartTableProps) (s : Storage) :
  getFromLocalStorage s HOMEPAGE_CHART_FILTER None = None ->
  examples p = None ->
  initialFilter p s = "Examples" /\
  chartFilter (mount p s) = "Examples" /\
  ~ In "Examples" (menu_names p) /\
  render p (mount p s) =
    VPage None ["Favorite"; "Mine"] "Examples" (EmptyStateView "Examples") false.
Proof.
  intros Hs He.
  assert (Hi : initialFilter p s = "Examples").
  { unfold initialFilter. rewrite Hs, He. reflexivity. }
  assert (Hm : menu_names p = ["Favorite"; "Mine"]).
  { unfold menu_names, menuTabs. rewrite He. reflexivity. }
  split; [exact Hi|]. split; [exact Hi|]. split.
  - rewrite Hm. simpl. intros [H|[H|H]]; try discriminate; contradiction.
  - unfold render, mount, defaultCollection, filteredExamples. cbn [loading charts
      sliceCurrentlyEditing chartFilter preparingExport].
    rewrite Hi, He, Hm. reflexivity.
Qed.

(** ** C10 *)

(** C10: the collection seeded into the list-view resource on mount is
    [mine] exactly when the initial tab is "Mine"; otherwise (Favorite
    included) it is the supplied examples, in order, restricted to the
    objects with a [viz_type] key (none when no examples are supplied). *)
Theorem C10_default_collection (p : ChartTableProps) (s : Storage) :
  (initialFilter p s = "Mine" -> charts (mount p s) = mine p) /\
  (initialFilter p s <> "Mine" ->
     charts (mount p s) =
       filter (has_key "viz_type")
         (match examples p with Some l => l | None => [] end)).
Proof.
  unfold mount, defaultCollection, filteredExamples; cbn [charts].
  split; intros H.
  - rewrite H. reflexivity.
  - destruct (String.eqb_spec (initialFilter p s) "Mine"); [contradiction|].
    destruct (examples p); reflexivity.
Qed.

(** * Witnesses: the theorems with hypotheses at concrete inputs *)

Lemma C1_witness :
  chartFilter (mount props_ex (stored "Mine")) <> "Favorite" /\
  initialFilter props_ex (stored "Favorite") = "Favorite" /\
  fetch_log (step props_ex (step props_ex (mount props_ex (stored "Mine"))
                               (ClickTab "Favorite")) RunEffect) =
    [getData_config props_ex "Favorite"] /\
  fetch_log (step props_ex (mount props_ex (stored "Favorite")) RunEffect) =
    [getData_config props_ex "Favorite"].
Proof.
  assert (H1 : chartFilter (mount props_ex (stored "Mine")) <> "Favorite").
  { intros H. vm_compute in H. discriminate H. }
  assert (H2 : initialFilter props_ex (stored "Favorite") = "Favorite")
    by reflexivity.
  split; [exact H1|]. split; [exact H2|]. split.
  - destruct (proj1 (C1_favorite_always_fetches props_ex) _ H1) as (_ & _ & H).
    rewrite H. reflexivity.
  - exact (proj2 (proj2 (C1_favorite_always_fetches props_ex) _ H2)).
Defined.

Lemma C3_witness :
  In "Examples" (menu_names props_ex) /\
  storage (step props_ex (mount props_ex empty_storage) (ClickTab "Examples"))
    HOMEPAGE_CHART_FILTER = Some "Examples" /\
  chartFilter (step props_ex (mount props_ex empty_storage) (ClickTab "Examples"))
    = "Examples".
Proof.
  assert (H : In "Examples" (menu_names props_ex)) by (simpl; auto).
  split; [exact H|].
  exact (C3_tab_persisted props_ex (mount props_ex empty_storage) "Examples" H).
Defined.


Lemma C6_witness :
  let st := set_charts_editing [chart_bar; chart_line] (Some chart_line)
              (mount props_ex empty_storage) in
  let u := [("id", JNum 2); ("viz_type", JStr "table")] in
  nth_error (charts st) 1 = Some chart_line /\
  chart_id chart_line = chart_id u /\
  nth_error (charts (step props_ex st (SaveEdit u))) 1 = Some u /\
  nth_error (charts (step props_ex st (SaveEdit u))) 0 = Some chart_bar.
Proof.
  cbn zeta.
  destruct (C6_edit_save_close props_ex
              (set_charts_editing [chart_bar; chart_line] (Some chart_line)
                 (mount props_ex empty_storage))
              [("id", JNum 2); ("viz_type", JStr "table")]) as (_ & Hn & _).
  split; [reflexivity|]. split; [reflexivity|]. split.
  - apply (Hn 1 chart_line); reflexivity.
  - apply (Hn 0 chart_bar); [reflexivity|]. intros E; discriminate E.
Defined.

Lemma C7_witness :
  let st1 := step props_ex (mount props_ex empty_storage) (BulkExport [chart_bar]) in
  no_export_complete [RunEffect; OpenEdit chart_bar] = true /\
  preparingExport (run props_ex st1 [RunEffect; OpenEdit chart_bar]) = true /\
  render props_ex (run props_ex st1 [RunEffect; OpenEdit chart_bar]) =
    VPage (Some chart_bar) ["Favorite"; "Mine"; "Examples"] "Examples"
      (CardGrid [chart_bar]) true.
Proof.
  cbn zeta.
  destruct (C7_export_flag props_ex (mount props_ex empty_storage) [chart_bar])
    as (_ & _ & _ & _ & H & _).
  destruct (H [RunEffect; OpenEdit chart_bar] eq_refl) as [Hp Hr].
  split; [reflexivity|]. split; [exact Hp|].
  rewrite Hr; [reflexivity | reflexivity | discriminate].
Defined.


Lemma C9_witness :
  getFromLocalStorage empty_storage HOMEPAGE_CHART_FILTER None = None /\
  examples props_no_ex = None /\
  initialFilter props_no_ex empty_storage = "Examples" /\
  ~ In "Examples" (menu_names props_no_ex).
Proof.
  destruct (C9_null_storage_examples props_no_ex empty_storage eq_refl eq_refl)
    as (H1 & _ & H3 & _).
  split; [reflexivity|]. split; [reflexivity|]. split; [exact H1 | exact H3].
Defined.

Lemma C10_witness :
  initialFilter props_ex (stored "Favorite") <> "Mine" /\
  charts (mount props_ex (stored "Favorite")) = [chart_bar] /\
  initialFilter props_ex (stored "Mine") = "Mine" /\
  charts (mount props_ex (stored "Mine")) = [chart_line].
Proof.
  assert (H1 : initialFilter props_ex (stored "Favorite") <> "Mine").
  { intros E. vm_compute in E. discriminate E. }
  assert (H2 : initialFilter props_ex (stored "Mine") = "Mine") by reflexivity.
  destruct (C10_default_collection props_ex (stored "Favorite")) as [_ Ha].
  destruct (C10_default_collection props_ex (stored "Mine")) as [Hb _].
  split; [exact H1|]. split; [rewrite (Ha H1); reflexivity|].
  split; [exact H2 | exact (Hb H2)].
Defined.

(** * Further properties of the component *)

(** [View All »] (lines 216-226): the list page it pushes to history. *)
Definition viewAll_target (st : State) : string :=
  if String.eqb (chartFilter st) "Favorite"
  then "/chart/list/?filters=(favorite:!t)"
  else "/chart/list/".

Lemma find_tab_in (p : ChartTableProps) (n : string) (t : MenuTab) :
  find_tab n (menuTabs p) = Some t -> In n (menu_names p).
Proof.
  unfold menu_names, menuTabs. destruct (examples p); cbn [find_tab app tab_name map];
    repeat match goal with
           | |- context [String.eqb ?a ?b] =>
               destruct (String.eqb_spec a b) as [<-|_]
           end;
    intros H; try discriminate H; simpl; auto.
Qed.


(** Events other than a tab click or the effect leave the tab, the
    storage, the fetch log and the effect bookkeeping alone. *)
Lemma handle_frame (p : ChartTableProps) (st : State) (e : Event) :
  match e with ClickTab _ | RunEffect => False | _ => True end ->
  chartFilter (handle p e st) = chartFilter st /\
  storage (handle p e st) = storage st /\
  fetch_log (handle p e st) = fetch_log st /\
  effect_pending (handle p e st) = effect_pending st /\
  loaded (handle p e st) = loaded st.
Proof.
  intros He. destruct e; try contradiction; simpl;
    try (repeat split; reflexivity).
  - unfold fetchResolved. destruct (is_outstanding k st); repeat split.
  - unfold fetchRejected. destruct (is_outstanding k st); repeat split.
Qed.

(** ** Only offered tabs are ever fetched *)






(** ** What the component writes to local storage *)

Lemma tab_handler_storage (v : string) (st : State) (k : string) :
  storage (tab_handler v st) k =
  if String.eqb k HOMEPAGE_CHART_FILTER then Some v else storage st k.
Proof.
  unfold tab_handler, setInLocalStorage, setChartFilter.
  destruct (String.eqb v (chartFilter st)); reflexivity.
Qed.

Definition storage_ok (p : ChartTableProps) (s : Storage) (st : State) : Prop :=
  (forall k, k <> HOMEPAGE_CHART_FILTER -> storage st k = s k) /\
  (storage st HOMEPAGE_CHART_FILTER = s HOMEPAGE_CHART_FILTER \/
   exists n, In n (menu_names p) /\ storage st HOMEPAGE_CHART_FILTER = Some n).

Lemma storage_ok_step (p : ChartTableProps) (s : Storage) (st : State) (e : Event) :
  storage_ok p s st -> storage_ok p s (step p st e).
Proof.
  intros Hq.
  assert (Hr : storage_ok p s (runEffect p st)).
  { destruct (runEffect_frame p st) as (_ & H & _). unfold storage_ok. rewrite H. exact Hq. }
  destruct e; unfold step.
  1: { unfold handle. destruct (find_tab name (menuTabs p)) as [t|] eqn:Ht; [|exact Hr].
       rewrite (find_tab_handler p name t Ht). destruct Hr as [Hk _]. split.
       - intros k Hne. rewrite tab_handler_storage.
         destruct (String.eqb_spec k HOMEPAGE_CHART_FILTER); [contradiction|].
         apply Hk; exact Hne.
       - right. exists name. split; [eapply find_tab_in; exact Ht|].
         rewrite tab_handler_storage. reflexivity. }
  1: exact Hr.
  all: match goal with
       | |- storage_ok ?q ?s0 (handle ?q ?e ?x) =>
           destruct (handle_frame q x e I) as (_ & Hs & _)
       end;
       unfold storage_ok; rewrite Hs; exact Hr.
Qed.

(** The component writes to local storage under [HOMEPAGE_CHART_FILTER]
    only, and only the name of a tab its submenu offers: after any events,
    every other key holds what it held at mount, and the filter key holds
    either its value at mount or an offered tab name. *)
Theorem storage_writes_offered_tab (p : ChartTableProps) (s : Storage)
  (es : list Event) :
  let st := run p (mount p s) es in
  (forall k, k <> HOMEPAGE_CHART_FILTER -> storage st k = s k) /\
  (storage st HOMEPAGE_CHART_FILTER = s HOMEPAGE_CHART_FILTER \/
   exists n, In n (menu_names p) /\ storage st HOMEPAGE_CHART_FILTER = Some n).
Proof.
  cbn zeta.
  assert (H : forall st, storage_ok p s st -> storage_ok p s (run p st es)).
  { induction es as [|e es IH]; intros st Hq; [exact Hq|].
    simpl. apply IH, storage_ok_step, Hq. }
  apply H. split; [reflexivity | left; reflexivity].
Qed.

(** ** Clicking tabs *)

(** Clicking the tab that is already active writes it to storage again
    but issues no fetch: React keeps the unchanged state, so the effect
    does not run again. *)
Theorem click_active_tab_no_fetch (p : ChartTableProps) (st : State) :
  effect_pending st = false -> In (chartFilter st) (menu_names p) ->
  let st1 := run p st [ClickTab (chartFilter st); RunEffect] in
  fetch_log st1 = fetch_log st /\
  chartFilter st1 = chartFilter st /\
  storage st1 HOMEPAGE_CHART_FILTER = Some (chartFilter st).
Proof.
  intros Hp Hin. cbn zeta.
  assert (Hr : runEffect p st = st) by (unfold runEffect; rewrite Hp; reflexivity).
  change (run p st [ClickTab (chartFilter st); RunEffect])
    with (runEffect p (handle p (ClickTab (chartFilter st)) (runEffect p st))).
  rewrite Hr, (click_handler p st _ Hin).
  assert (Hs : setChartFilter (chartFilter st) st = st).
  { unfold setChartFilter. rewrite String.eqb_refl. reflexivity. }
  unfold tab_handler. rewrite Hs.
  unfold runEffect, set_storage; cbn [effect_pending]. rewrite Hp.
  cbn [fetch_log chartFilter storage].
  split; [reflexivity|]. split; [reflexivity|].
  unfold setInLocalStorage. rewrite String.eqb_refl. reflexivity.
Qed.

(** Once the mount effect has run, switching to another offered tab
    issues exactly one fetch, the one for the new tab. *)
Theorem switch_tab_fetches_once (p : ChartTableProps) (st : State) (t : string) :
  loaded st = true -> effect_pending st = false ->
  In t (menu_names p) -> t <> chartFilter st ->
  let st1 := run p st [ClickTab t; RunEffect] in
  chartFilter st1 = t /\
  fetch_log st1 = getData_config p t :: fetch_log st /\
  loading st1 = true /\ effect_pending st1 = false.
Proof.
  intros Hl Hp Hin Hne. cbn zeta.
  assert (Hr : runEffect p st = st) by (unfold runEffect; rewrite Hp; reflexivity).
  change (run p st [ClickTab t; RunEffect])
    with (runEffect p (handle p (ClickTab t) (runEffect p st))).
  rewrite Hr, (click_handler p st t Hin).
  destruct (tab_handler_changed t st Hne) as [Hc2 Hp2].
  destruct (tab_handler_frame t st) as (Hl2 & Hf2 & _).
  unfold runEffect. rewrite Hp2, Hl2, Hl, orb_true_l.
  unfold finish_effect, getData, fetchData;
    cbn [fetch_log chartFilter loading effect_pending].
  rewrite Hf2, Hc2. repeat split.
Qed.

(** ** Mounting with nothing stored *)

(** With nothing stored under the filter key and examples supplied, the
    component mounts on "Examples", runs its mount effect without any
    request, and shows the supplied examples that have a [viz_type] (or the
    Examples empty state when there are none), with all three tabs. *)
Theorem mount_empty_storage_examples (p : ChartTableProps) (s : Storage)
  (l : list obj) :
  getFromLocalStorage s HOMEPAGE_CHART_FILTER None = None ->
  examples p = Some l ->
  let st := run p (mount p s) [RunEffect] in
  fetch_log st = [] /\ loaded st = true /\
  menu_names p = ["Favorite"; "Mine"; "Examples"] /\
  render p st =
    VPage None (menu_names p) "Examples"
      (match filter (has_key "viz_type") l with
       | [] => EmptyStateView "Examples"
       | cs => CardGrid cs
       end) false.
Proof.
  intros Hs He. cbn zeta.
  assert (Hi : initialFilter p s = "Examples").
  { unfold initialFilter. rewrite Hs, He. reflexivity. }
  change (run p (mount p s) [RunEffect]) with (runEffect p (mount p s)).
  unfold runEffect, mount. cbn [effect_pending loaded chartFilter].
  rewrite Hi. cbn [orb String.eqb].
  split; [reflexivity|]. split; [reflexivity|].
  split; [unfold menu_names, menuTabs; rewrite He; reflexivity|].
  unfold render, finish_effect, defaultCollection, filteredExamples.
  cbn [loading charts sliceCurrentlyEditing chartFilter preparingExport].
  rewrite Hi, He. cbn [String.eqb].
  destruct (filter (has_key "viz_type") l); reflexivity.
Qed.

(** ** The View All button *)

(** After a click on an offered tab, [View All »] leads to the chart list
    filtered on favorites when that tab is Favorite, and to the whole chart
    list for any other tab. *)
Theorem viewAll_after_click (p : ChartTableProps) (st : State) (n : string) :
  In n (menu_names p) ->
  viewAll_target (step p st (ClickTab n)) =
  if String.eqb n "Favorite" then "/chart/list/?filters=(favorite:!t)"
  else "/chart/list/".
Proof.
  intros Hin. unfold step. rewrite (click_handler p _ n Hin).
  unfold viewAll_target. rewrite (proj2 (tab_handler_spec n (runEffect p st))).
  reflexivity.
Qed.

(** * Witnesses of the further properties *)


Lemma storage_writes_offered_tab_witness :
  storage (run props_ex (mount props_ex empty_storage) [RunEffect; ClickTab "Mine"])
    "other_key" = None /\
  storage (run props_ex (mount props_ex empty_storage) [RunEffect; ClickTab "Mine"])
    HOMEPAGE_CHART_FILTER = Some "Mine".
Proof.
  destruct (storage_writes_offered_tab props_ex empty_storage [RunEffect; ClickTab "Mine"])
    as [Hk _].
  split; [apply Hk; intros E; discriminate E | reflexivity].
Defined.

Lemma click_active_tab_no_fetch_witness :
  let st := run props_ex (mount props_ex (stored "Mine")) [RunEffect] in
  effect_pending st = false /\ In (chartFilter st) (menu_names props_ex) /\
  fetch_log (run props_ex st [ClickTab (chartFilter st); RunEffect]) = [].
Proof.
  cbn zeta.
  assert (H1 : effect_pending (run props_ex (mount props_ex (stored "Mine")) [RunEffect])
               = false) by reflexivity.
  assert (H2 : In (chartFilter (run props_ex (mount props_ex (stored "Mine")) [RunEffect]))
                 (menu_names props_ex)) by (right; left; reflexivity).
  split; [exact H1|]. split; [exact H2|].
  destruct (click_active_tab_no_fetch props_ex _ H1 H2) as [Hf _].
  rewrite Hf. reflexivity.
Defined.

Lemma switch_tab_fetches_once_witness :
  let st := run props_ex (mount props_ex (stored "Mine")) [RunEffect] in
  loaded st = true /\ effect_pending st = false /\
  In "Favorite" (menu_names props_ex) /\ "Favorite" <> chartFilter st /\
  fetch_log (run props_ex st [ClickTab "Favorite"; RunEffect]) =
    [getData_config props_ex "Favorite"].
Proof.
  cbn zeta.
  set (st := run props_ex (mount props_ex (stored "Mine")) [RunEffect]).
  assert (H1 : loaded st = true) by reflexivity.
  assert (H2 : effect_pending st = false) by reflexivity.
  assert (H3 : In "Favorite" (menu_names props_ex)) by (left; reflexivity).
  assert (H4 : "Favorite" <> chartFilter st) by (intros E; vm_compute in E; discriminate E).
  split; [exact H1|]. split; [exact H2|]. split; [exact H3|]. split; [exact H4|].
  destruct (switch_tab_fetches_once props_ex st "Favorite" H1 H2 H3 H4) as (_ & Hf & _).
  rewrite Hf. reflexivity.
Defined.

Lemma mount_empty_storage_examples_witness :
  getFromLocalStorage empty_storage HOMEPAGE_CHART_FILTER None = None /\
  examples props_ex = Some [chart_bar; not_a_chart] /\
  render props_ex (run props_ex (mount props_ex empty_storage) [RunEffect]) =
    VPage None ["Favorite"; "Mine"; "Examples"] "Examples" (CardGrid [chart_bar]) false.
Proof.
  destruct (mount_empty_storage_examples props_ex empty_storage [chart_bar; not_a_chart]
              eq_refl eq_refl) as (_ & _ & Hm & Hr).
  split; [reflexivity|]. split; [reflexivity|].
  rewrite Hr, Hm. reflexivity.
Defined.

Lemma viewAll_after_click_witness :
  In "Favorite" (menu_names props_ex) /\
  viewAll_target (step props_ex (mount props_ex (stored "Mine")) (ClickTab "Favorite")) =
    "/chart/list/?filters=(favorite:!t)".
Proof.
  assert (H : In "Favorite" (menu_names props_ex)) by (left; reflexivity).
  split; [exact H|].
  rewrite (viewAll_after_click props_ex (mount props_ex (stored "Mine")) "Favorite" H).
  reflexivity.
Defined.
